(** * Mission manager: task queue, command parser and task-advancement policy

    A shallow embedding of [src/node/mission_manager_node.py].

    Python objects that are mutated through several references (the task
    dictionaries reachable from [tasks], [current_task], [saved_task] and
    [override_task]) live in an explicit store; everything else is a value.
    Exceptions are results; a raise keeps the store as it was at that point. *)

From Stdlib Require Import ZArith String Ascii List PrimFloat Lia.
From stdpp Require Import gmap strings list fin_maps.

Set Warnings "-register-all,-inexact-float".
Open Scope Z_scope.

(** ** Python strings

    A [str] is modelled as a [string] whose characters are the code points
    below 256. *)
Module PyStr.

(** [str.isspace] on one character: TAB..CR, FS..US, SPACE, NEL, NBSP. *)
Definition isspace (c : ascii) : bool :=
  let n := N_of_ascii c in
  (((9 <=? n) && (n <=? 13)) || ((28 <=? n) && (n <=? 32))
   || (n =? 133) || (n =? 160))%N.

Fixpoint lstrip (s : string) : string :=
  match s with
  | EmptyString => EmptyString
  | String c r => if isspace c then lstrip r else s
  end.

Fixpoint rstrip (s : string) : string :=
  match s with
  | EmptyString => EmptyString
  | String c r =>
      match rstrip r with
      | EmptyString => if isspace c then EmptyString else String c EmptyString
      | r' => String c r'
      end
  end.

(** [s.strip()] *)
Definition strip (s : string) : string := lstrip (rstrip s).

(** The longest whitespace-free prefix, and what follows it. *)
Fixpoint take_word (s : string) : string * string :=
  match s with
  | EmptyString => (EmptyString, EmptyString)
  | String c r =>
      if isspace c then (EmptyString, s)
      else let '(w, rest) := take_word r in (String c w, rest)
  end.

(** [s.split()]: the maximal whitespace-free runs of [s], in order.
    [w] is the run being read. *)
Fixpoint split_from (w : string) (s : string) : list string :=
  match s with
  | EmptyString => match w with EmptyString => [] | _ => [w] end
  | String c r =>
      if isspace c then
        match w with
        | EmptyString => split_from EmptyString r
        | _ => w :: split_from EmptyString r
        end
      else split_from (w +:+ String c EmptyString) r
  end.

Definition split (s : string) : list string := split_from EmptyString s.

(** [s.split(None, 1)]: at most one split; the remainder loses its leading
    whitespace only. *)
Definition split1 (s : string) : list string :=
  match lstrip s with
  | EmptyString => []
  | s1 =>
      let '(w, rest) := take_word s1 in
      match lstrip rest with
      | EmptyString => [w]
      | r => [w; r]
      end
  end.

(** [s.startswith(p)] *)
Definition startswith (s p : string) : bool := String.prefix p s.

(** [s in (a, b, ...)] for a tuple of strings. *)
Definition among (s : string) (l : list string) : bool :=
  existsb (String.eqb s) l.

End PyStr.

(** ** Python values *)

(** Plain data as [json.loads] returns it, and the [GeoPose] messages that
    paths are made of (only the position is used by the manager). *)
Inductive pyval : Type :=
  | PNone
  | PBool (b : bool)
  | PInt (z : Z)
  | PFloat (f : float)
  | PStr (s : string)
  | PList (l : list pyval)
  | PDict (kvs : list (string * pyval))
  | PGeoPose (latitude longitude : pyval).

(** The exceptions the modelled code can raise.  [DanglingRef] is not a
    Python exception: it is the model's answer to an address that is not in
    the store, which no Python reference can be. *)
Inductive exc : Type :=
  | KeyError (key : string)
  | TypeError
  | ValueError
  | IndexError
  | AttributeError (attr : string)
  | OverflowError
  | RecursionError
  | DanglingRef.

Inductive result (A : Type) : Type :=
  | Ok (a : A)
  | Err (e : exc).
Arguments Ok {A} a.
Arguments Err {A} e.

#[export] Instance result_ret : MRet result := fun A a => Ok a.
#[export] Instance result_bind : MBind result := fun A B f m =>
  match m with
  | Ok a => f a
  | Err e => Err e
  end.

(** What the interpreter and the standard library contribute: the builtins
    [float] and [int] on strings ([None] is their [ValueError]), the
    conversion of an [int] operand of float arithmetic ([None] is
    [OverflowError]), the order between a float and an int, [math.degrees],
    [json.loads] ([None] is its [JSONDecodeError], a [ValueError]), the
    depth of calls the interpreter allows and [==] between two distinct task
    dictionaries. *)
Class PyRuntime : Type := {
  py_float : string → option float;
  py_int : string → option Z;
  float_of_int : Z → option float;
  float_ge_int : float → Z → bool;
  math_degrees : float → float;
  json_loads : string → option pyval;
  recursion_limit : nat;
  dict_eq : gmap string pyval → gmap string pyval → bool
}.

Module Py.

Definition is_none (v : pyval) : bool :=
  match v with PNone => true | _ => false end.

(** [v == s] for a string literal [s]. *)
Definition eq_str (v : pyval) (s : string) : bool :=
  match v with PStr s' => String.eqb s' s | _ => false end.

(** [v in (a, b, ...)] for a tuple of string literals. *)
Definition among (v : pyval) (l : list string) : bool :=
  existsb (eq_str v) l.


Fixpoint assoc (k : string) (kvs : list (string * pyval)) : option pyval :=
  match kvs with
  | [] => None
  | (k', v) :: r => if String.eqb k' k then Some v else assoc k r
  end.

(** [v[k]] for a string key [k]. *)
Definition getitem (v : pyval) (k : string) : result pyval :=
  match v with
  | PDict kvs =>
      match assoc k kvs with
      | Some x => Ok x
      | None => Err (KeyError k)
      end
  | _ => Err TypeError
  end.

Fixpoint chars (s : string) : list pyval :=
  match s with
  | EmptyString => []
  | String c r => PStr (String c EmptyString) :: chars r
  end.

(** The items [for x in v] runs over. *)
Definition iter (v : pyval) : result (list pyval) :=
  match v with
  | PList l => Ok l
  | PDict kvs => Ok (map (λ kv, PStr (fst kv)) kvs)
  | PStr s => Ok (chars s)
  | _ => Err TypeError
  end.

(** [len(v)] *)
Definition len (v : pyval) : result Z :=
  match v with
  | PList l => Ok (Z.of_nat (length l))
  | PDict kvs => Ok (Z.of_nat (length kvs))
  | PStr s => Ok (Z.of_nat (String.length s))
  | _ => Err TypeError
  end.

(** An [int] (or [bool], its subclass) as a number. *)
Definition as_int (v : pyval) : option Z :=
  match v with
  | PInt z => Some z
  | PBool b => Some (Z.b2z b)
  | _ => None
  end.

(** [v * c] for a float [c]. *)
Definition mul_float `{PyRuntime} (v : pyval) (c : float) : result float :=
  match v with
  | PFloat f => Ok (PrimFloat.mul f c)
  | PInt _ | PBool _ =>
      match as_int v ≫= float_of_int with
      | Some f => Ok (PrimFloat.mul f c)
      | None => Err OverflowError
      end
  | _ => Err TypeError
  end.


(** [v + 1], as [v += 1] computes it. *)
Definition add1 `{PyRuntime} (v : pyval) : result pyval :=
  match v with
  | PInt z => Ok (PInt (z + 1))
  | PBool b => Ok (PInt (Z.b2z b + 1))
  | PFloat f => Ok (PFloat (PrimFloat.add f 1))
  | _ => Err TypeError
  end.

(** [v[i]] for a list [v] and an index value [i]; negative indices count
    from the end. *)
Definition index (v i : pyval) : result pyval :=
  match v, as_int i with
  | PList l, Some z =>
      let n := Z.of_nat (length l) in
      let j := if z <? 0 then z + n else z in
      if (0 <=? j) && (j <? n) then
        match l !! Z.to_nat j with Some x => Ok x | None => Err IndexError end
      else Err IndexError
  | PStr s, Some z =>
      let l := chars s in
      let n := Z.of_nat (length l) in
      let j := if z <? 0 then z + n else z in
      if (0 <=? j) && (j <? n) then
        match l !! Z.to_nat j with Some x => Ok x | None => Err IndexError end
      else Err IndexError
  | PDict _, _ => Err (KeyError "")
  | _, _ => Err TypeError
  end.

End Py.

(** ** Task dictionaries and the manager's attributes *)

(** A task is a [dict] with string keys.  An absent key and a key bound to
    [None] are different things ([task['transit_path']] raises on the
    first). *)
Abbreviation pydict := (gmap string pyval).

(** Identity of a task dictionary: its position in the store. *)
Definition addr := nat.

(** The attributes of [MissionManagerCore] the task logic reads or writes,
    with the store of task dictionaries. *)
#[projections(primitive)]
Record core : Type := Core {
  heap : list pydict;
  tasks : list addr;
  current_task : option addr;
  override_task : option addr;
  saved_task : option addr;
  pending_command : option string;
  piloting_mode : string;
  done_behavior : string;
  default_speed : float;
  waypointThreshold : float;
  planner : string
}.

Definition set_heap (h : list pydict) (s : core) : core :=
  Core h (tasks s) (current_task s) (override_task s) (saved_task s)
    (pending_command s) (piloting_mode s) (done_behavior s)
    (default_speed s) (waypointThreshold s) (planner s).
Definition set_tasks (l : list addr) (s : core) : core :=
  Core (heap s) l (current_task s) (override_task s) (saved_task s)
    (pending_command s) (piloting_mode s) (done_behavior s)
    (default_speed s) (waypointThreshold s) (planner s).
Definition set_current_task (c : option addr) (s : core) : core :=
  Core (heap s) (tasks s) c (override_task s) (saved_task s)
    (pending_command s) (piloting_mode s) (done_behavior s)
    (default_speed s) (waypointThreshold s) (planner s).
Definition set_override_task (o : option addr) (s : core) : core :=
  Core (heap s) (tasks s) (current_task s) o (saved_task s)
    (pending_command s) (piloting_mode s) (done_behavior s)
    (default_speed s) (waypointThreshold s) (planner s).
Definition set_saved_task (v : option addr) (s : core) : core :=
  Core (heap s) (tasks s) (current_task s) (override_task s) v
    (pending_command s) (piloting_mode s) (done_behavior s)
    (default_speed s) (waypointThreshold s) (planner s).
Definition set_pending_command (p : option string) (s : core) : core :=
  Core (heap s) (tasks s) (current_task s) (override_task s) (saved_task s)
    p (piloting_mode s) (done_behavior s)
    (default_speed s) (waypointThreshold s) (planner s).

(** What the vehicle's navigation reports at the time of a call.
    [positionLatLon] is in radians and absent before the first fix;
    [distanceTo lat lon] is [distanceBearingTo(lat, lon)[0]];
    [lineup_path start next] is the path from the vehicle to the point
    [lineup_distance] behind [start] on the line from [start] to [next], as
    the path services return it. *)
Record navigation : Type := Navigation {
  positionLatLon : option (float * float);
  distanceTo : pyval → pyval → result (option float);
  lineup_path : pyval → pyval → result (list pyval)
}.

(** ** Computations on the manager: state and exceptions *)

Inductive outcome (A : Type) : Type :=
  | Return (a : A) (s : core)
  | Raised (e : exc) (s : core).
Arguments Return {A} a s.
Arguments Raised {A} e s.

Definition M (A : Type) : Type := core → outcome A.

#[export] Instance M_ret : MRet M := λ A a s, Return a s.
#[export] Instance M_bind : MBind M := λ A B f m s,
  match m s with
  | Return a s' => f a s'
  | Raised e s' => Raised e s'
  end.

Definition get : M core := λ s, Return s s.
Definition modify (f : core → core) : M unit := λ s, Return tt (f s).
Definition raise {A} (e : exc) : M A := λ s, Raised e s.
Definition lift {A} (r : result A) : M A :=
  match r with Ok a => mret a | Err e => raise e end.
Definition skip : M unit := mret tt.

(** The dictionary an address stands for. *)
Definition load (a : addr) : M pydict := λ s,
  match heap s !! a with
  | Some t => Return t s
  | None => Raised DanglingRef s
  end.

Definition store (a : addr) (t : pydict) : M unit :=
  modify (λ s, set_heap (<[a := t]> (heap s)) s).

(** A new dictionary object. *)
Definition alloc (t : pydict) : M addr := λ s,
  Return (length (heap s)) (set_heap (heap s ++ [t]) s).

(** [d[k]] and [d[k] = v] on the dictionary at [a]. *)
Definition getkey (a : addr) (k : string) : M pyval :=
  t ← load a;
  match t !! k with
  | Some v => mret v
  | None => raise (KeyError k)
  end.

Definition setkey (a : addr) (k : string) (v : pyval) : M unit :=
  t ← load a; store a (<[k := v]> t).

(** [d['type'] == ty] on the dictionary at [a]. *)
Definition type_is (a : addr) (ty : string) : M bool :=
  v ← getkey a "type"; mret (Py.eq_str v ty).

Fixpoint alloc_all (ts : list pydict) : M (list addr) :=
  match ts with
  | [] => mret []
  | t :: r => a ← alloc t; l ← alloc_all r; mret (a :: l)
  end.

(** ** Parsing task descriptions *)

Section Parsing.
Context `{PyRuntime}.

(** [parseLatLong(args)]; the result [None] is Python's. *)
Definition parseLatLong (args : string) : option pydict :=
  match PyStr.split args with
  | [a; b] =>
      match py_float a with
      | Some lat =>
          match py_float b with
          | Some lon =>
              Some {[ "latitude" := PFloat lat; "longitude" := PFloat lon ]}
          | None => None
          end
      | None => None
      end
  | _ => None
  end.

(** The dictionary [parseMission] appends, once its objectives and label
    are in. *)
Definition mission_plan (speed : float) (objectives : list pyval)
    (label : pyval) : pydict :=
  <[ "label" := label ]>
    {[ "type" := PStr "mission_plan";
       "nav_objectives" := PList objectives;
       "default_speed" := PFloat speed;
       "do_transit" := PBool true;
       "current_nav_objective_index" := PInt 0 ]}.

(** The loop over the children of a [SurveyArea]: [false] at the first
    child that is not a [Waypoint]. *)
Fixpoint all_waypoints (cs : list pyval) : result bool :=
  match cs with
  | [] => Ok true
  | c :: r =>
      ty ← Py.getitem c "type";
      if Py.eq_str ty "Waypoint" then all_waypoints r else Ok false
  end.

(** [speed] after the [Platform] test on [item]. *)
Definition platform_speed (item ty : pyval) (speed : float) : result float :=
  if Py.eq_str ty "Platform" then
    knots ← Py.getitem item "speed"; Py.mul_float knots 0.514444%float
  else Ok speed.

(** The body of the loop of [parseMission] from [items] on, with the
    recursive call as [recur]; [speed] and [ret] are its two variables. *)
Fixpoint parse_items (recur : pyval → float → result (list pydict))
    (items : list pyval) (speed : float) (ret : list pydict)
    : result (list pydict) :=
  match items with
  | [] => Ok ret
  | item :: items =>
      ty ← Py.getitem item "type";
      speed ← platform_speed item ty speed;
      ret ←
        (if Py.among ty ["SurveyPattern"; "TrackLine"; "SurveyArea"] then
           if Py.eq_str ty "SurveyPattern" then
             children ← Py.getitem item "children";
             cs ← Py.iter children;
             label ← Py.getitem item "label";
             Ok (ret ++ [mission_plan speed cs label])
           else if Py.eq_str ty "TrackLine" then
             label ← Py.getitem item "label";
             Ok (ret ++ [mission_plan speed [item] label])
           else
             children ← Py.getitem item "children";
             cs ← Py.iter children;
             waypoints ← all_waypoints cs;
             if waypoints : bool then
               label ← Py.getitem item "label";
               Ok (ret ++ [mission_plan speed [item] label])
             else
               sub ← recur children speed;
               Ok (ret ++ sub)
         else Ok ret);
      ret ←
        (if Py.eq_str ty "Group" then
           children ← Py.getitem item "children";
           group_items ← recur children speed;
           Ok (ret ++ group_items)
         else Ok ret);
      parse_items recur items speed ret
  end.

(** [parseMission(plan, default_speed)].  [depth] bounds the nesting of the
    calls, as the interpreter's recursion limit does. *)
Fixpoint parseMission (depth : nat) (plan : pyval) (default_speed : float)
    : result (list pydict) :=
  match depth with
  | O => Err RecursionError
  | S depth =>
      items ← Py.iter plan;
      parse_items (parseMission depth) items default_speed []
  end.

End Parsing.

(** ** The mission core *)

Section Core.
Context `{PyRuntime}.

(** [clearTasks()] *)
Definition clearTasks : M unit :=
  modify (set_tasks []);;
  modify (set_current_task None);;
  modify (set_saved_task None).

(** [setOverride(task)], for the dictionary at [a]. *)
Definition setOverride (a : addr) : M unit :=
  modify (set_override_task (Some a));;
  modify (set_pending_command (Some "do_override")).

(** A [goto] or [hover] task from the coordinates in [args]: the result of
    [parseLatLong] with its ['type'] set, if there is one. *)
Definition latlong_task (ty : string) (args : string) : option pydict :=
  <[ "type" := PStr ty ]> <$> parseLatLong args.

(** [addTask(args, prepend)].  [args] is [None] when the command had no
    argument.  The prepend branch reads [self.task], an attribute the class
    does not have. *)
Definition addTask (args : option string) (prepend : bool) : M unit :=
  match args with
  | None => raise (AttributeError "split")
  | Some args =>
      match PyStr.split1 args with
      | [task_type; rest] =>
          '(task, task_list) ←
            (if String.eqb task_type "mission_plan" then
               match json_loads rest with
               | None => raise ValueError
               | Some plan =>
                   s ← get;
                   l ← lift (parseMission recursion_limit plan
                               (default_speed s));
                   mret (None, l)
               end
             else if String.eqb task_type "goto" then
               match latlong_task "goto" args with
               | Some t => mret (Some t, [t])
               | None => mret (None, [])
               end
             else if String.eqb task_type "hover" then
               match latlong_task "hover" args with
               | Some t => mret (Some t, [t])
               | None => mret (None, [])
               end
             else mret (None, []));
          if bool_decide (is_Some task)
             || bool_decide (0 < length task_list)%nat
          then
            if prepend then raise (AttributeError "task")
            else
              l ← alloc_all task_list;
              modify (λ s, set_tasks (tasks s ++ l) s)
          else skip
      | _ => skip
      end
  end.

(** [commandCallback(msg, _)] on [msg.data]. *)
Definition commandCallback (data : string) : M unit :=
  match PyStr.split1 data with
  | [] => raise IndexError
  | cmd :: rest =>
      let args := head rest in
      if String.eqb cmd "replace_task" then
        clearTasks;;
        addTask args false;;
        modify (set_pending_command (Some "next_task"))
      else if String.eqb cmd "append_task" then addTask args false
      else if String.eqb cmd "prepend_task" then addTask args true
      else if String.eqb cmd "clear_tasks" then clearTasks
      else if PyStr.among cmd ["next_task"; "prev_task"; "goto_task";
                               "goto_line"; "start_line"; "restart_mission"]
      then modify (set_pending_command (Some data))
      else if String.eqb cmd "override" then
        match args with
        | None => raise (AttributeError "split")
        | Some args =>
            match PyStr.split1 args with
            | [task_type; rest] =>
                let task :=
                  if String.eqb task_type "goto"
                  then latlong_task "goto" rest else None in
                let task :=
                  if String.eqb task_type "hover"
                  then latlong_task "hover" rest else task in
                match task with
                | Some t => a ← alloc t; setOverride a
                | None => skip
                end
            | _ => skip
            end
        end
      else skip
  end.

(** [self.pending_command == cmd] *)
Definition pending_is (s : core) (cmd : string) : bool :=
  match pending_command s with
  | Some p => String.eqb p cmd
  | None => false
  end.

(** [c is not None and c['type'] == 'mission_plan'] *)
Definition is_mission_plan (c : option addr) : M bool :=
  match c with
  | Some a => type_is a "mission_plan"
  | None => mret false
  end.

(** The comparison [list.index] makes: the same object, or an equal one. *)
Definition same_or_equal (h : list pydict) (a x : addr) : bool :=
  bool_decide (a = x)
  || match h !! a, h !! x with
     | Some ta, Some tx => dict_eq ta tx
     | _, _ => false
     end.

(** Position of the first element of [l] that [list.index] takes for [x]. *)
Fixpoint list_index (h : list pydict) (x : addr) (l : list addr) : option nat :=
  match l with
  | [] => None
  | a :: r => if same_or_equal h a x then Some O else S <$> list_index h x r
  end.

(** [self.tasks[0]] *)
Definition first_task : M addr :=
  s ← get;
  match head (tasks s) with
  | Some a => mret a
  | None => raise IndexError
  end.

(** The two assignments that restart a mission plan. *)
Definition reset_plan (a : addr) : M unit :=
  setkey a "current_nav_objective_index" PNone;;
  setkey a "current_path" PNone.

(** The loop of the [restart_mission] branch. *)
Fixpoint restart_all (l : list addr) : M unit :=
  match l with
  | [] => skip
  | t :: r =>
      mp ← type_is t "mission_plan";
      (if mp : bool then reset_plan t else skip);;
      restart_all r
  end.

(** What [nextTask] does once the step has left the list. *)
Definition apply_done_behavior (nav : navigation) : M unit :=
  s ← get;
  if String.eqb (done_behavior s) "restart" then
    a ← first_task; modify (set_current_task (Some a))
  else if String.eqb (done_behavior s) "hover" then
    a ← alloc {[ "type" := PStr "hover" ]};
    modify (set_current_task (Some a));;
    match positionLatLon nav with
    | None => raise TypeError
    | Some (lat, lon) =>
        setkey a "latitude" (PFloat (math_degrees lat));;
        setkey a "longitude" (PFloat (math_degrees lon))
    end
  else skip.

(** The [next_task] / [prev_task] branch. *)
Definition step_task (nav : navigation) : M unit :=
  s ← get;
  let next := pending_is s "next_task" in
  let prev := pending_is s "prev_task" in
  if (next || prev) && bool_decide (0 < length (tasks s))%nat then
    match current_task s with
    | None =>
        (if next then a ← first_task; modify (set_current_task (Some a))
         else skip);;
        (if prev then modify (set_current_task (last (tasks s))) else skip)
    | Some c =>
        match list_index (heap s) c (tasks s) with
        | Some i =>
            if next then
              if bool_decide (length (tasks s) ≤ S i)%nat
              then modify (set_current_task None)
              else modify (set_current_task (tasks s !! S i))
            else
              match i with
              | O => modify (set_current_task None)
              | S j => modify (set_current_task (tasks s !! j))
              end
        | None => modify (set_current_task None)
        end;;
        s ← get;
        match current_task s with
        | None => apply_done_behavior nav
        | Some _ => skip
        end
    end;;
    s ← get;
    mp ← is_mission_plan (current_task s);
    match current_task s with
    | Some a => if mp : bool then reset_plan a else skip
    | None => skip
    end
  else skip.

(** The [goto_line] / [start_line] branch. *)
Definition select_line : M unit :=
  s ← get;
  mp ← is_mission_plan (current_task s);
  match current_task s, pending_command s with
  | Some c, Some p =>
      if mp && (PyStr.startswith p "goto_line"
                || PyStr.startswith p "start_line")
      then
        match PyStr.split1 (PyStr.strip p) with
        | [cmd; arg] =>
            match py_int arg with
            | None => raise ValueError
            | Some line_no =>
                if 0 <=? line_no then
                  objs ← getkey c "nav_objectives";
                  n ← lift (Py.len objs);
                  if line_no <? n then
                    setkey c "current_nav_objective_index" (PInt line_no);;
                    setkey c "current_path" PNone;;
                    (if String.eqb cmd "goto_line"
                     then setkey c "do_transit" (PBool false) else skip);;
                    (if String.eqb cmd "start_line"
                     then setkey c "do_transit" (PBool true) else skip)
                  else skip
                else skip
            end
        | _ => skip
        end
      else skip
  | _, _ => skip
  end.

(** The override branch; [true] when [nextTask] returns from it. *)
Definition dismiss_override : M bool :=
  s ← get;
  match override_task s with
  | Some _ =>
      modify (set_current_task (saved_task s));;
      (match saved_task s, tasks s with
       | None, a :: _ => modify (set_current_task (Some a))
       | _, _ => skip
       end);;
      modify (set_override_task None);;
      if pending_is s "next_task"
      then modify (set_pending_command None);; mret true
      else mret false
  | None => mret false
  end.

(** [nextTask()] *)
Definition nextTask (nav : navigation) : M unit :=
  s ← get;
  if pending_is s "do_override" then
    mp ← is_mission_plan (current_task s);
    match current_task s with
    | Some a => if mp : bool then setkey a "current_path" PNone else skip
    | None => skip
    end;;
    modify (set_saved_task (current_task s));;
    modify (set_pending_command None)
  else
    returned ← dismiss_override;
    if returned : bool then skip
    else
      s ← get;
      (if pending_is s "restart_mission"
          && bool_decide (0 < length (tasks s))%nat
       then
         restart_all (tasks s);;
         a ← first_task; modify (set_current_task (Some a))
       else skip);;
      step_task nav;;
      select_line;;
      modify (set_pending_command None).

(** [getCurrentTask()] *)
Definition getCurrentTask (s : core) : option addr :=
  match override_task s with
  | Some o => Some o
  | None => current_task s
  end.

End Core.

(** ** The states of the executor that write to a mission plan *)

Section Executor.
Context `{PyRuntime}.




(** [LineEnded.execute]; the result is the outcome of the state and the
    word published on [project11/endofline], if any. *)
Definition LineEnded_execute : M (string * option string) :=
  s ← get;
  let task := getCurrentTask s in
  mp ← is_mission_plan task;
  match task with
  | Some a =>
      if mp : bool then
        transit_path ← getkey a "transit_path";
        if negb (Py.is_none transit_path) then
          setkey a "transit_path" PNone;;
          mret ("mission_plan", Some "transit")
        else
          setkey a "current_path" PNone;;
          i ← getkey a "current_nav_objective_index";
          i' ← lift (Py.add1 i);
          setkey a "current_nav_objective_index" i';;
          mret ("mission_plan", Some "track")
      else
        modify (set_pending_command (Some "next_task"));;
        mret ("next_item", None)
  | None =>
      modify (set_pending_command (Some "next_task"));;
      mret ("next_item", None)
  end.

End Executor.

(** ** A runtime and a vehicle to run the definitions on *)

Module Demo.

Definition digit (c : ascii) : option Z :=
  let n := Z.of_N (N_of_ascii c) in
  if (48 <=? n) && (n <=? 57) then Some (n - 48) else None.

Fixpoint digits (acc : Z) (s : string) : option Z :=
  match s with
  | EmptyString => Some acc
  | String c r => d ← digit c; digits (10 * acc + d) r
  end.

(** Decimal literals without sign, the part of [int] the examples use. *)
Definition int_of_digits (s : string) : option Z :=
  match s with
  | EmptyString => None
  | _ => digits 0 s
  end.

(** Exact on the integers a float holds exactly; nothing else is
    converted. *)
Fixpoint float_of_positive (p : positive) : float :=
  match p with
  | xH => 1%float
  | xO q => PrimFloat.mul 2 (float_of_positive q)
  | xI q => PrimFloat.add (PrimFloat.mul 2 (float_of_positive q)) 1
  end.

Definition small_float (z : Z) : option float :=
  match z with
  | Z0 => Some 0%float
  | Zpos p =>
      if z <? 9007199254740992 then Some (float_of_positive p) else None
  | Zneg p =>
      if -9007199254740992 <? z
      then Some (PrimFloat.opp (float_of_positive p)) else None
  end.

(** The coordinates the examples use. *)
Definition float_literal (s : string) : option float :=
  if String.eqb s "43.0" then Some 43%float
  else if String.eqb s "-70.0" then Some (-70)%float
  else if String.eqb s "43.1" then Some 43.1%float
  else if String.eqb s "-70.1" then Some (-70.1)%float
  else None.

(** One track line, as [json.loads] returns it for [trackline_json]. *)
Definition trackline : pyval :=
  PDict [("type", PStr "TrackLine"); ("label", PStr "L1");
         ("waypoints",
          PList [PDict [("latitude", PFloat 43); ("longitude", PFloat (-70))];
                 PDict [("latitude", PFloat 43.1);
                        ("longitude", PFloat (-70.1))]])].

(** [s] between double quotes. *)
Definition q (s : string) : string :=
  String "034"%char s +:+ String "034"%char EmptyString.

Definition trackline_json : string :=
  "[{" +:+ q "type" +:+ ":" +:+ q "TrackLine" +:+ ","
  +:+ q "label" +:+ ":" +:+ q "L1" +:+ ","
  +:+ q "waypoints" +:+ ":[{"
  +:+ q "latitude" +:+ ":43.0," +:+ q "longitude" +:+ ":-70.0},{"
  +:+ q "latitude" +:+ ":43.1," +:+ q "longitude" +:+ ":-70.1}]}]".

Definition loads (s : string) : option pyval :=
  if String.eqb s trackline_json then Some (PList [trackline]) else None.

(** Two distinct dictionaries are never taken for equal. *)
Definition runtime : PyRuntime := {|
  py_float := float_literal;
  py_int := int_of_digits;
  float_of_int := small_float;
  float_ge_int := λ f z,
    match small_float z with
    | Some g => PrimFloat.leb g f
    | None => false
    end;
  math_degrees := λ x, PrimFloat.mul x 57.29577951308232%float;
  json_loads := loads;
  recursion_limit := 1000;
  dict_eq := λ _ _, false
|}.

(** A vehicle with a fix, far from everything, and no path service. *)
Definition nav : navigation := {|
  positionLatLon := Some (0.75%float, (-1.22)%float);
  distanceTo := λ _ _, Ok (Some 1000%float);
  lineup_path := λ _ _, Ok []
|}.

(** A vehicle before its first fix. *)
Definition nav_no_fix : navigation := {|
  positionLatLon := None;
  distanceTo := λ _ _, Ok None;
  lineup_path := λ _ _, Ok []
|}.

(** The manager as [__init__] and the first reconfiguration leave it. *)
Definition init : core := {|
  heap := [];
  tasks := [];
  current_task := None;
  override_task := None;
  saved_task := None;
  pending_command := None;
  piloting_mode := "standby";
  done_behavior := "hover";
  default_speed := 2%float;
  waypointThreshold := 10%float;
  planner := "path_follower"
|}.

End Demo.

(** * Vocabulary of the statements *)

(** The manager as a computation leaves it, returned or raised. *)
Definition final {A} (o : outcome A) : core :=
  match o with
  | Return _ s | Raised _ s => s
  end.

Fixpoint nospace (s : string) : bool :=
  match s with
  | EmptyString => true
  | String c r => negb (PyStr.isspace c) && nospace r
  end.

(** A non-empty string without whitespace, as a number in decimal form
    is. *)
Definition word (s : string) : Prop := s ≠ EmptyString ∧ nospace s = true.

(** [s] begins with a character that is not whitespace. *)
Definition starts_word (s : string) : bool :=
  match s with
  | EmptyString => false
  | String c _ => negb (PyStr.isspace c)
  end.

(** [d['type']] can be read on the current task: the reference is live and
    the key is there, as on every dictionary the manager creates. *)
Definition current_typed (s : core) : Prop :=
  ∀ a, current_task s = Some a →
    ∃ t, heap s !! a = Some t ∧ is_Some (t !! "type").

(** The same for every element of [tasks]. *)
Definition tasks_typed (s : core) : Prop :=
  ∀ a, a ∈ tasks s → ∃ t, heap s !! a = Some t ∧ is_Some (t !! "type").

(** The dictionary at [a] is a mission plan. *)
Definition plan_at (s : core) (a : addr) (t : pydict) : Prop :=
  heap s !! a = Some t ∧ t !! "type" = Some (PStr "mission_plan").

(** [t['type'] == 'mission_plan'], for a dictionary that has the key. *)
Definition is_plan (t : pydict) : bool :=
  match t !! "type" with
  | Some v => Py.eq_str v "mission_plan"
  | None => false
  end.

(** [t] after the two assignments of [reset_plan]. *)
Definition restarted (t : pydict) : pydict :=
  <["current_path" := PNone]> (<["current_nav_objective_index" := PNone]> t).

(** The index of a mission plan is [None] or an [int] from [0] that [bound]
    relates to the number of its objectives. *)
Definition index_within (bound : Z → Z → Prop) (t : pydict) : Prop :=
  t !! "type" = Some (PStr "mission_plan") →
  ∃ objs, t !! "nav_objectives" = Some (PList objs)
    ∧ (t !! "current_nav_objective_index" = Some PNone
       ∨ ∃ i, t !! "current_nav_objective_index" = Some (PInt i)
              ∧ 0 ≤ i ∧ bound i (Z.of_nat (length objs))).

(** Strictly below the number of objectives, and at most equal to it. *)
Definition index_valid : pydict → Prop := index_within Z.lt.
Definition index_bounded : pydict → Prop := index_within Z.le.

(** [m] keeps [P] on every dictionary of the store, also when it raises. *)
Definition keeps {A} (P : pydict → Prop) (m : M A) : Prop :=
  ∀ s, Forall P (heap s) → Forall P (heap (final (m s))).

Section Vocabulary.
Context `{PyRuntime}.

(** [c] is the last element of [tasks] and [list.index] finds it there: no
    earlier element is the same object or equal to it. *)
Definition at_tail (s : core) (c : addr) : Prop :=
  last (tasks s) = Some c
  ∧ ∀ i a, tasks s !! i = Some a → (S i < length (tasks s))%nat →
      same_or_equal (heap s) a c = false.

(** The speed after the [Platform] items of [pre], from [speed]: each one
    replaces it by its ['speed'] in knots times [0.514444]. *)
Fixpoint rolling_speed (pre : list pyval) (speed : float) : result float :=
  match pre with
  | [] => Ok speed
  | item :: r =>
      ty ← Py.getitem item "type";
      speed ←
        (if Py.eq_str ty "Platform" then
           knots ← Py.getitem item "speed";
           Py.mul_float knots 0.514444%float
         else Ok speed);
      rolling_speed r speed
  end.

(** [s] is the rolling speed at an item of [plan] that produces a task, or
    at such an item below one whose children are expanded, when the
    expansion starts from [s0]. *)
Inductive in_effect : pyval → float → float → Prop :=
  | in_effect_here plan pre item post s0 s ty :
      Py.iter plan = Ok (pre ++ item :: post) →
      rolling_speed pre s0 = Ok s →
      Py.getitem item "type" = Ok ty →
      Py.among ty ["SurveyPattern"; "TrackLine"; "SurveyArea"] = true →
      in_effect plan s0 s
  | in_effect_below plan pre item post s0 s children s' :
      Py.iter plan = Ok (pre ++ item :: post) →
      rolling_speed pre s0 = Ok s →
      Py.getitem item "children" = Ok children →
      in_effect children s s' →
      in_effect plan s0 s'.

(** What C3 says of a task that the expansion produced at speed [s]. *)
Definition fresh_plan (index : pyval) (s : float) (t : pydict) : Prop :=
  t !! "type" = Some (PStr "mission_plan")
  ∧ t !! "current_nav_objective_index" = Some index
  ∧ t !! "default_speed" = Some (PFloat s)
  ∧ t !! "do_transit" = Some (PBool true)
  ∧ t !! "current_path" = None
  ∧ t !! "transit_path" = None.

(** C3 as the specification states it, for one plan and start speed. *)
Definition expansion_index_none (plan : pyval) (s0 : float) : Prop :=
  ∀ depth ts t, parseMission depth plan s0 = Ok ts → t ∈ ts →
    ∃ s, in_effect plan s0 s ∧ fresh_plan PNone s t.


(** C7 as the specification states it, for one state. *)
Definition tail_step (nav : navigation) (s : core) : Prop :=
  pending_command s = Some "next_task" → tasks s ≠ [] →
  is_Some (current_task s) → current_task s = last (tasks s) →
  ∃ s', nextTask nav s = Return tt s'
    ∧ tasks s' = tasks s
    ∧ (done_behavior s = "restart" → current_task s' = head (tasks s))
    ∧ (done_behavior s = "hover" →
         ∃ a t, current_task s' = Some a ∧ (a ∉ tasks s)
                ∧ heap s' !! a = Some t ∧ t !! "type" = Some (PStr "hover")).

End Vocabulary.

(** ** States to run the definitions on *)

Module Cases.

#[local] Existing Instance Demo.runtime.

(** One mission plan queued, and [next_task] pending. *)
Definition queued : core :=
  set_pending_command (Some "next_task")
    (set_tasks [0%nat]
       (set_heap [mission_plan 2 [Demo.trackline] (PStr "L1")] Demo.init)).

(** The plan is being run when an override is requested. *)
Definition overriding : core :=
  set_pending_command (Some "do_override")
    (set_current_task (Some 0%nat) queued).

(** The plan is being run when [goto_task 1] arrives. *)
Definition goto_task_pending : core :=
  set_pending_command (Some "goto_task 1")
    (set_current_task (Some 0%nat) queued).



Definition plan_A : pydict := mission_plan 2 [Demo.trackline] (PStr "A").
Definition plan_B : pydict := mission_plan 2 [Demo.trackline] (PStr "B").
Definition hover_O : pydict :=
  {[ "type" := PStr "hover"; "latitude" := PFloat 43.1;
     "longitude" := PFloat (-70.1) ]}.

(** The last of two plans is current, and [next_task] is pending. *)
Definition at_the_tail : core :=
  Core [plan_A; plan_B] [0%nat; 1%nat] (Some 1%nat) None None
    (Some "next_task") "autonomous" "hover" 2 10 "path_follower".

(** The same with an override installed over the last plan, and
    [done_behavior] set to restart. *)
Definition overridden : core :=
  Core [plan_A; plan_B; hover_O] [0%nat; 1%nat] (Some 1%nat) (Some 2%nat)
    (Some 1%nat) (Some "next_task") "autonomous" "restart" 2 10
    "path_follower".
End Cases.

(** * Properties *)

(** ** Running a computation *)

Lemma bind_run {A B} (m : M A) (f : A → M B) (s : core) :
  (m ≫= f) s =
  match m s with
  | Return a s' => f a s'
  | Raised e s' => Raised e s'
  end.
Proof. reflexivity. Qed.

Lemma bind_Return {A B} (m : M A) (f : A → M B) (s s' : core) (b : B) :
  (m ≫= f) s = Return b s' ↔
  ∃ a s1, m s = Return a s1 ∧ f a s1 = Return b s'.
Proof.
  rewrite bind_run. destruct (m s) as [a s1|e s1]; split.
  - intros Hf. by exists a, s1.
  - by intros (a' & s1' & [= <- <-] & Hf).
  - discriminate.
  - by intros (a' & s1' & [=] & _).
Qed.

Lemma modify_Return (f : core → core) (s s' : core) (u : unit) :
  modify f s = Return u s' ↔ s' = f s.
Proof. unfold modify. destruct u. split; [by intros [= <-] | by intros ->]. Qed.

(** Unfolds the primitives of a computation applied to a state. *)
Ltac run :=
  repeat (progress (unfold mbind, M_bind, mret, M_ret, get, modify, raise,
                      lift, skip; cbv beta iota)).

(** Runs the first computation of a sequence. *)
Ltac step :=
  rewrite bind_run; unfold skip; unfold mret, M_ret, get, modify, raise;
  cbv beta iota.

(** Splits a sequence that returned into its first computation and the
    rest. *)
Tactic Notation "inv_bind" hyp(Hm) "as" ident(Ha) :=
  let a := fresh "a" in
  let s1 := fresh "s" in
  apply bind_Return in Hm as (a & s1 & Ha & Hm).

(** ** Splitting a command *)

Lemma append_cons (c : ascii) (s r : string) :
  String c s +:+ r = String c (s +:+ r).
Proof. reflexivity. Qed.

Lemma append_nil_r (s : string) : s +:+ EmptyString = s.
Proof. induction s; [done|]. rewrite append_cons. congruence. Qed.

Lemma append_assoc (a b c : string) : (a +:+ b) +:+ c = a +:+ b +:+ c.
Proof. induction a; [done|]. rewrite !append_cons. congruence. Qed.

Lemma split_from_word (acc w r : string) :
  nospace w = true →
  PyStr.split_from acc (w +:+ r) = PyStr.split_from (acc +:+ w) r.
Proof.
  revert acc. induction w as [|c w IH]; intros acc Hw.
  - by rewrite append_nil_r.
  - simpl in Hw. apply andb_true_iff in Hw as [Hc Hw].
    apply negb_true_iff in Hc. rewrite append_cons. simpl.
    rewrite Hc, IH by done.
    by rewrite append_assoc.
Qed.

Lemma split_two_words (a b : string) :
  word a → word b → PyStr.split (a +:+ " " +:+ b) = [a; b].
Proof.
  intros [Ha Hna] [Hb Hnb]. unfold PyStr.split.
  rewrite split_from_word by done.
  change (PyStr.split_from (EmptyString +:+ a) (" " +:+ b))
    with (match a with
          | EmptyString => PyStr.split_from EmptyString b
          | _ => a :: PyStr.split_from EmptyString b
          end).
  destruct a as [|c a]; [done|].
  rewrite <- (append_nil_r b) at 1. rewrite split_from_word by done.
  simpl. by destruct b.
Qed.

Lemma lstrip_word (w r : string) :
  word w → PyStr.lstrip (w +:+ r) = w +:+ r.
Proof.
  intros [Hne Hw]. destruct w as [|c w]; [done|]. simpl in Hw.
  apply andb_true_iff in Hw as [Hc _]. apply negb_true_iff in Hc.
  rewrite append_cons. simpl. by rewrite Hc.
Qed.

Lemma take_word_word (w r : string) :
  nospace w = true →
  PyStr.take_word (w +:+ " " +:+ r) = (w, " " +:+ r).
Proof.
  induction w as [|c w IH]; intros Hw; [done|]. simpl in Hw.
  apply andb_true_iff in Hw as [Hc Hw]. apply negb_true_iff in Hc.
  rewrite append_cons. simpl. by rewrite Hc, IH.
Qed.

(** A word, a space, and a rest that begins with a character that is not
    whitespace. *)
Lemma split1_word (w rest : string) :
  word w → starts_word rest = true →
  PyStr.split1 (w +:+ " " +:+ rest) = [w; rest].
Proof.
  intros Hw Hr. unfold PyStr.split1. rewrite lstrip_word by done.
  destruct (w +:+ " " +:+ rest) eqn:E.
  { destruct Hw as [Hne _]. by destruct w. }
  rewrite <- E. rewrite take_word_word by apply Hw.
  change (PyStr.lstrip (" " +:+ rest)) with (PyStr.lstrip rest).
  destruct rest as [|c r]; [done|]. simpl in *.
  apply negb_true_iff in Hr. by rewrite Hr.
Qed.

Lemma word_starts (w r : string) : word w → starts_word (w +:+ r) = true.
Proof.
  intros [Hne Hw]. destruct w as [|c w]; [done|]. simpl in Hw.
  by apply andb_true_iff in Hw as [Hc _].
Qed.

Section Properties.
Context `{PyRuntime}.

Lemma type_is_Return (a : addr) (ty : string) (s s' : core) (b : bool) :
  type_is a ty s = Return b s' ↔
  s' = s ∧ ∃ t v, heap s !! a = Some t ∧ t !! "type" = Some v
                  ∧ b = Py.eq_str v ty.
Proof.
  unfold type_is, getkey, load. run.
  destruct (heap s !! a) as [t|]; [|split; [discriminate|]].
  - destruct (t !! "type") as [v|] eqn:Hv; run; split.
    + intros [= <- <-]. split; [done|]. by exists t, v.
    + intros [-> (t' & v' & [= <-] & Hv' & ->)]. rewrite Hv in Hv'.
      by injection Hv' as ->.
    + discriminate.
    + intros [_ (t' & v' & [= <-] & Hv' & _)]. by rewrite Hv in Hv'.
  - by intros [_ (t' & v' & [=] & _)].
Qed.

Lemma eq_str_true (v : pyval) (ty : string) :
  Py.eq_str v ty = true ↔ v = PStr ty.
Proof.
  destruct v; simpl; try (split; [discriminate|by intros [=]]).
  rewrite String.eqb_eq. split; [by intros ->|by intros [= ->]].
Qed.

Lemma is_mission_plan_typed (s : core) :
  current_typed s →
  ∃ b, is_mission_plan (current_task s) s = Return b s
       ∧ (b = true ↔ ∃ a t, current_task s = Some a ∧ plan_at s a t).
Proof.
  intros Hty. unfold is_mission_plan.
  destruct (current_task s) as [a|] eqn:Hc.
  - destruct (Hty a Hc) as (t & Ht & v & Hv).
    exists (Py.eq_str v "mission_plan"). split.
    + apply type_is_Return. split; [done|]. by exists t, v.
    + rewrite eq_str_true. split.
      * intros ->. by exists a, t.
      * intros (a' & t' & [= <-] & Ht' & Hv'). rewrite Ht in Ht'.
        injection Ht' as <-. rewrite Hv in Hv'. by injection Hv' as ->.
  - exists false. split; [done|]. split; [discriminate|].
    by intros (a & t & [=] & _).
Qed.

Lemma setkey_run (a : addr) (k : string) (v : pyval) (s : core) (t : pydict) :
  heap s !! a = Some t →
  setkey a k v s = Return tt (set_heap (<[a := <[k := v]> t]> (heap s)) s).
Proof. intros Ht. unfold setkey, load, store. step. by rewrite Ht. Qed.

Lemma dismiss_override_none (s : core) :
  override_task s = None → dismiss_override s = Return false s.
Proof. intros Ho. unfold dismiss_override. step. by rewrite Ho. Qed.

Lemma dismiss_override_true (s s' : core) :
  dismiss_override s = Return true s' → pending_command s' = None.
Proof.
  unfold dismiss_override. intros Hd. inv_bind Hd as Hg.
  injection Hg as <- <-.
  destruct (override_task s); [|discriminate].
  inv_bind Hd as H1. inv_bind Hd as H2. inv_bind Hd as H3.
  destruct (pending_is s "next_task"); [|discriminate].
  inv_bind Hd as H4. apply modify_Return in H4 as ->.
  by injection Hd as <-.
Qed.

Lemma step_task_other (nav : navigation) (s : core) :
  pending_is s "next_task" = false → pending_is s "prev_task" = false →
  step_task nav s = Return tt s.
Proof. intros Hn Hp. unfold step_task. step. by rewrite Hn, Hp. Qed.

Lemma select_line_other (s : core) :
  current_typed s →
  (∀ p, pending_command s = Some p →
        PyStr.startswith p "goto_line" = false
        ∧ PyStr.startswith p "start_line" = false) →
  select_line s = Return tt s.
Proof.
  intros Hty Hp. destruct (is_mission_plan_typed s Hty) as (b & Hb & _).
  unfold select_line. step. step. rewrite Hb.
  destruct (current_task s) as [c|]; [|done].
  destruct (pending_command s) as [p|]; [|done].
  destruct (Hp p eq_refl) as [-> ->]. by rewrite andb_false_r.
Qed.

(** ** The override request *)

(** C1: when [nextTask] runs with [pending_command == 'do_override'] it
    returns with [saved_task] set to what [current_task] was (possibly
    [None]), [pending_command] cleared, and [override_task], [tasks] and
    [current_task] as they were; the store changes only if the current task
    is a mission plan, and then only by setting its ['current_path'] to
    [None]. *)
Theorem nextTask_do_override (nav : navigation) (s : core) :
  pending_command s = Some "do_override" →
  current_typed s →
  ∃ s', nextTask nav s = Return tt s'
    ∧ saved_task s' = current_task s
    ∧ pending_command s' = None
    ∧ override_task s' = override_task s
    ∧ tasks s' = tasks s
    ∧ current_task s' = current_task s
    ∧ (∀ a t, current_task s = Some a → plan_at s a t →
         heap s' = <[a := <["current_path" := PNone]> t]> (heap s))
    ∧ ((∀ a t, current_task s = Some a → ¬ plan_at s a t) →
         heap s' = heap s).
Proof.
  intros Hp Hty.
  destruct (is_mission_plan_typed s Hty) as (b & Hb & Hplan).
  unfold nextTask. step.
  replace (pending_is s "do_override") with true
    by (unfold pending_is; by rewrite Hp).
  step. rewrite Hb. step.
  destruct b.
  - destruct Hplan as [Hplan _].
    destruct (Hplan eq_refl) as (a & t & Hc & Ht & Hmp).
    rewrite Hc. rewrite (setkey_run a _ _ s t Ht). step.
    eexists. split; [reflexivity|]. cbn. rewrite Hc.
    repeat split; try done.
    + intros a' t' [= <-] [Ht' _]. rewrite Ht in Ht'. by injection Ht' as <-.
    + intros Hno. destruct (Hno a t eq_refl). by split.
  - assert (Hno : ∀ a t, current_task s = Some a → ¬ plan_at s a t).
    { intros a t Hc Hpl. destruct Hplan as [_ Hplan].
      discriminate Hplan. by exists a, t. }
    exists (set_pending_command None (set_saved_task (current_task s) s)).
    split; [by destruct (current_task s)|]. cbn.
    repeat split; try done.
    intros a t Hc Hpl. by destruct (Hno a t Hc).
Qed.

(** ** The pending command is consumed *)

(** C5: whenever [nextTask] returns, [pending_command] is [None]. *)
Theorem nextTask_clears_pending (nav : navigation) (s s' : core) :
  nextTask nav s = Return tt s' → pending_command s' = None.
Proof.
  unfold nextTask. intros Hn. inv_bind Hn as Hg. injection Hg as <- <-.
  destruct (pending_is s "do_override").
  - inv_bind Hn as H1. inv_bind Hn as H2. inv_bind Hn as H3.
    by apply modify_Return in Hn as ->.
  - inv_bind Hn as Hd. destruct a.
    + injection Hn as <-. by eapply dismiss_override_true.
    + inv_bind Hn as H1. inv_bind Hn as H2. inv_bind Hn as H3.
      inv_bind Hn as H4. by apply modify_Return in Hn as ->.
Qed.

(** ** Clearing the list *)

(** C9: [clearTasks], and so the command [clear_tasks], returns with
    [tasks] empty and [current_task] and [saved_task] [None];
    [override_task], [pending_command] and the store are as they were. *)
Theorem clearTasks_frame (s : core) :
  ∃ s', clearTasks s = Return tt s'
        ∧ commandCallback "clear_tasks" s = Return tt s'
        ∧ tasks s' = [] ∧ current_task s' = None ∧ saved_task s' = None
        ∧ override_task s' = override_task s
        ∧ pending_command s' = pending_command s
        ∧ heap s' = heap s.
Proof. eexists. split; [reflexivity|]. repeat split. Qed.

(** ** A command the policy ignores *)

(** C10: with no override installed, [nextTask] on a pending command that
    begins with [goto_task] returns with [pending_command] cleared and
    nothing else changed. *)
Theorem nextTask_goto_task (nav : navigation) (s : core) (n : string) :
  pending_command s = Some ("goto_task" +:+ n) →
  override_task s = None →
  current_typed s →
  nextTask nav s = Return tt (set_pending_command None s).
Proof.
  intros Hp Ho Hty.
  unfold nextTask. step.
  replace (pending_is s "do_override") with false
    by (unfold pending_is; by rewrite Hp).
  step. rewrite dismiss_override_none by done. step. step.
  replace (pending_is s "restart_mission") with false
    by (unfold pending_is; by rewrite Hp).
  cbn [andb]. step.
  rewrite step_task_other by (unfold pending_is; by rewrite Hp).
  step. rewrite select_line_other; [done|done|].
  intros p. rewrite Hp. by intros [= <-].
Qed.

(** ** Adding a task *)

Lemma parseLatLong_three_words (ty lat lon : string) :
  word ty → word lat → word lon →
  parseLatLong (ty +:+ " " +:+ lat +:+ " " +:+ lon) = None.
Proof.
  intros Hty Hlat Hlon. unfold parseLatLong, PyStr.split.
  rewrite split_from_word by apply Hty.
  change (PyStr.split_from (EmptyString +:+ ty) (" " +:+ lat +:+ " " +:+ lon))
    with (match ty with
          | EmptyString => PyStr.split (lat +:+ " " +:+ lon)
          | _ => ty :: PyStr.split (lat +:+ " " +:+ lon)
          end).
  rewrite split_two_words by done.
  destruct ty; [by destruct Hty|done].
Qed.

(** C2, at the input where the code departs from it: the command
    [append_task goto <lat> <lon>], for any two words [lat] and [lon],
    returns with the manager exactly as it was.  [addTask] hands the whole
    task string, verb included, to [parseLatLong], which finds three words
    and gives [None]; no task is appended. *)
Theorem append_goto_adds_nothing (s : core) (lat lon : string) :
  word lat → word lon →
  commandCallback ("append_task goto " +:+ lat +:+ " " +:+ lon) s
  = Return tt s.
Proof.
  intros Hlat Hlon. unfold commandCallback.
  change (PyStr.split1 ("append_task goto " +:+ lat +:+ " " +:+ lon))
    with ["append_task"; "goto " +:+ lat +:+ " " +:+ lon].
  cbn [String.eqb Ascii.eqb Bool.eqb head]. unfold addTask.
  change ("goto " +:+ lat +:+ " " +:+ lon)
    with ("goto" +:+ " " +:+ lat +:+ " " +:+ lon).
  rewrite split1_word by (by try apply word_starts).
  cbn [String.eqb Ascii.eqb Bool.eqb]. unfold latlong_task.
  by rewrite parseLatLong_three_words.
Qed.

(** C8, at the input where the code departs from it: [addTask] with
    [prepend] set never changes the manager.  Either nothing was parsed, or
    the branch raises [AttributeError] on [self.task] before [tasks] is
    assigned. *)
Theorem prepend_leaves_state (s : core) (args : option string) :
  final (addTask args true s) = s.
Proof.
  unfold addTask. destruct args as [args|]; [|done].
  destruct (PyStr.split1 args) as [|task_type [|rest [|]]]; try done.
  step.
  destruct (String.eqb task_type "mission_plan").
  { destruct (json_loads rest) as [plan|]; [|done].
    step. step. unfold lift.
    destruct (parseMission _ _ _) as [[|t ts]|e]; done. }
  destruct (String.eqb task_type "goto").
  { by destruct (latlong_task "goto" args). }
  destruct (String.eqb task_type "hover").
  { by destruct (latlong_task "hover" args). }
  done.
Qed.

(** The command [prepend_task mission_plan <json>] raises as soon as the
    plan expands to at least one task. *)
Lemma prepend_mission_plan_raises (s : core) (json : string)
    (plan : pyval) (t : pydict) (ts : list pydict) :
  starts_word json = true →
  json_loads json = Some plan →
  parseMission recursion_limit plan (default_speed s) = Ok (t :: ts) →
  commandCallback ("prepend_task mission_plan " +:+ json) s
  = Raised (AttributeError "task") s.
Proof.
  intros Hc Hj Hp. unfold commandCallback.
  change (PyStr.split1 ("prepend_task mission_plan " +:+ json))
    with ["prepend_task"; "mission_plan" +:+ " " +:+ json].
  cbn [String.eqb Ascii.eqb Bool.eqb head]. unfold addTask.
  rewrite split1_word by done.
  cbn [String.eqb Ascii.eqb Bool.eqb]. rewrite Hj.
  step. step. step. by rewrite Hp.
Qed.

(** ** Restarting the mission *)

Lemma type_is_run (a : addr) (ty : string) (s : core) (t : pydict) (v : pyval) :
  heap s !! a = Some t → t !! "type" = Some v →
  type_is a ty s = Return (Py.eq_str v ty) s.
Proof.
  intros Ht Hv. apply type_is_Return. split; [done|]. by exists t, v.
Qed.




Lemma reset_plan_run (a : addr) (s : core) (t : pydict) :
  heap s !! a = Some t →
  reset_plan a s = Return tt (set_heap (<[a := restarted t]> (heap s)) s).
Proof.
  intros Ht. unfold reset_plan. step.
  rewrite (setkey_run a _ _ s t Ht).
  erewrite setkey_run.
  2:{ cbn. apply list_lookup_insert_eq. by eapply lookup_lt_Some. }
  cbn. by rewrite list_insert_insert_eq.
Qed.




(** ** Stepping from the tail of the list *)

Lemma list_index_last (h : list pydict) (c : addr) (l : list addr) :
  last l = Some c →
  (∀ i a, l !! i = Some a → (S i < length l)%nat →
     same_or_equal h a c = false) →
  list_index h c l = Some (length l - 1)%nat.
Proof.
  induction l as [|x l IH]; intros Hlast Hne; [done|].
  destruct l as [|y r].
  - injection Hlast as ->. cbn. unfold same_or_equal.
    by rewrite bool_decide_eq_true_2.
  - change (list_index h c (x :: y :: r))
      with (if same_or_equal h x c then Some O
            else S <$> list_index h c (y :: r)).
    rewrite (Hne O x); [|done|cbn; lia].
    rewrite IH.
    + cbn. f_equal. lia.
    + by rewrite last_cons_cons in Hlast.
    + intros i a Hi Hlt. apply (Hne (S i) a); [done|]. cbn in *. lia.
Qed.

Lemma setkey_fresh (k : string) (v : pyval) (s : core) (h : list pydict)
    (t : pydict) :
  heap s = h ++ [t] →
  setkey (length h) k v s = Return tt (set_heap (h ++ [<[k := v]> t]) s).
Proof.
  intros Hh. rewrite (setkey_run _ _ _ s t).
  - rewrite Hh. do 2 f_equal.
    rewrite insert_app_r_alt by done. by rewrite Nat.sub_diag.
  - rewrite Hh. by apply list_lookup_middle.
Qed.

(** The step of [next_task] from the tail of the list. *)
Lemma step_task_at_tail (nav : navigation) (s : core) (c : addr) :
  pending_command s = Some "next_task" →
  current_task s = Some c → at_tail s c →
  step_task nav s
  = (apply_done_behavior nav;;
     s ← get;
     mp ← is_mission_plan (current_task s);
     match current_task s with
     | Some a => if mp : bool then reset_plan a else skip
     | None => skip
     end) (set_current_task None s).
Proof.
  intros Hp Hc [Hlast Hne]. unfold step_task. step.
  unfold pending_is. rewrite Hp. cbn [String.eqb Ascii.eqb Bool.eqb orb].
  assert (Hlen : (0 < length (tasks s))%nat).
  { destruct (tasks s); [done|cbn; lia]. }
  rewrite bool_decide_eq_true_2 by done. cbn [andb].
  rewrite Hc. rewrite (list_index_last _ _ _ Hlast Hne).
  rewrite bool_decide_eq_true_2 by lia.
  repeat (rewrite bind_run; cbv beta iota).
  reflexivity.
Qed.

(** C7, amended: with [pending_command == 'next_task'], no override
    installed, and [current_task] the last element of [tasks] where
    [list.index] finds it, [nextTask] returns with [tasks] unchanged and,
    under [done_behavior == 'restart'], [current_task] the first element of
    [tasks] (restarted if it is a mission plan); under
    [done_behavior == 'hover'] and with a position fix, [current_task] a new
    [hover] dictionary at the vehicle's position in degrees, which is not in
    [tasks]. *)
Theorem nextTask_at_tail (nav : navigation) (s : core) (c : addr) :
  pending_command s = Some "next_task" →
  override_task s = None →
  current_task s = Some c →
  at_tail s c →
  tasks_typed s →
  (done_behavior s = "restart" →
   ∃ s', nextTask nav s = Return tt s'
     ∧ tasks s' = tasks s
     ∧ current_task s' = head (tasks s)
     ∧ pending_command s' = None
     ∧ ∀ a t, heap s !! a = Some t →
         heap s' !! a
         = Some (if bool_decide (head (tasks s) = Some a) && is_plan t
                 then restarted t else t))
  ∧ (done_behavior s = "hover" →
     ∀ lat lon, positionLatLon nav = Some (lat, lon) →
     ∃ s', nextTask nav s = Return tt s'
       ∧ tasks s' = tasks s
       ∧ pending_command s' = None
       ∧ current_task s' = Some (length (heap s))
       ∧ (length (heap s) ∉ tasks s)
       ∧ heap s'
         = heap s ++
           [<["longitude" := PFloat (math_degrees lon)]>
              (<["latitude" := PFloat (math_degrees lat)]>
                 {["type" := PStr "hover"]})]).
Proof.
  intros Hp Ho Hc Htail Hty.
  assert (Hrun : nextTask nav s
    = (step_task nav;; select_line;; modify (set_pending_command None)) s).
  { unfold nextTask. step.
    replace (pending_is s "do_override") with false
      by (unfold pending_is; by rewrite Hp).
    step. rewrite dismiss_override_none by done. step. step.
    replace (pending_is s "restart_mission") with false
      by (unfold pending_is; by rewrite Hp).
    cbn [andb]. by step. }
  assert (Hend : ∀ s1, pending_command s1 = Some "next_task" →
            current_typed s1 →
            (select_line;; modify (set_pending_command None)) s1
            = Return tt (set_pending_command None s1)).
  { intros s1 Hp1 Hty1. rewrite bind_run.
    rewrite select_line_other; [done|done|].
    intros p. rewrite Hp1. by intros [= <-]. }
  rewrite Hrun. rewrite bind_run.
  rewrite (step_task_at_tail nav s c Hp Hc Htail).
  destruct (tasks s) as [|a0 l] eqn:Hl.
  { destruct Htail as [Hlast _]. by rewrite Hl in Hlast. }
  destruct (Hty a0) as (t0 & Ht0 & v0 & Hv0); [rewrite Hl; left|].
  split.
  - intros Hdb.
    set (s1 := set_current_task (Some a0) s).
    set (s2 := if is_plan t0
               then set_heap (<[a0 := restarted t0]> (heap s)) s1 else s1).
    assert (Hs2 : ∀ a t, heap s !! a = Some t →
              heap s2 !! a = Some (if bool_decide (Some a0 = Some a)
                                      && is_plan t
                                   then restarted t else t)).
    { intros a t Ht. unfold s2. destruct (decide (a0 = a)) as [<-|Hne].
      - rewrite bool_decide_eq_true_2 by done. cbn [andb].
        rewrite Ht0 in Ht. injection Ht as <-.
        destruct (is_plan t0); [|done]. cbn.
        apply list_lookup_insert_eq. by eapply lookup_lt_Some.
      - rewrite bool_decide_eq_false_2 by congruence. cbn [andb].
        destruct (is_plan t0); [|done]. cbn.
        by rewrite list_lookup_insert_ne. }
    exists (set_pending_command None s2). split.
    + rewrite bind_run. unfold apply_done_behavior. step.
      cbn [done_behavior set_current_task]. rewrite Hdb.
      cbn [String.eqb Ascii.eqb Bool.eqb]. unfold first_task. step. step.
      cbn [tasks set_current_task]. rewrite Hl. cbn [head]. step.
      fold s1. step. cbn [current_task s1 set_current_task].
      unfold is_mission_plan. rewrite (type_is_run a0 _ s1 t0 v0) by done.
      assert (Hplan : Py.eq_str v0 "mission_plan" = is_plan t0)
        by (unfold is_plan; by rewrite Hv0).
      rewrite Hplan.
      assert (Hreset : (if is_plan t0 then reset_plan a0
                        else λ s, Return tt s) s1 = Return tt s2).
      { unfold s2. destruct (is_plan t0); [|done].
        by rewrite (reset_plan_run a0 s1 t0). }
      rewrite Hreset. apply Hend.
      * unfold s2. by destruct (is_plan t0).
      * intros a Ha. assert (a = a0) as ->.
        { unfold s2 in Ha. destruct (is_plan t0); cbn in Ha; congruence. }
        eexists. split; [by apply Hs2|].
        destruct (_ && _); [|done]. unfold restarted.
        by rewrite !lookup_insert_ne.
    + cbn. split; [unfold s2; by destruct (is_plan t0)|].
      split; [unfold s2; by destruct (is_plan t0)|]. split; [done|].
      exact Hs2.
  - intros Hdb lat lon Hpos.
    set (d := <["longitude" := PFloat (math_degrees lon)]>
                (<["latitude" := PFloat (math_degrees lat)]>
                   ({["type" := PStr "hover"]} : pydict))).
    set (s2 := set_current_task (Some (length (heap s)))
                 (set_heap (heap s ++ [d]) s)).
    exists (set_pending_command None s2).
    assert (Hd : heap s2 !! length (heap s) = Some d).
    { cbn. by apply list_lookup_middle. }
    split.
    + rewrite bind_run. unfold apply_done_behavior. step.
      cbn [done_behavior set_current_task]. rewrite Hdb.
      cbn [String.eqb Ascii.eqb Bool.eqb]. unfold alloc at 1. step. step.
      rewrite Hpos. step.
      erewrite setkey_fresh by reflexivity.
      erewrite setkey_fresh by reflexivity.
      step. fold d. cbn [current_task set_heap set_current_task].
      unfold is_mission_plan.
      change (heap (set_current_task None s)) with (heap s).
      change (set_heap (heap s ++ [d]) _) with s2.
      rewrite bind_run.
      rewrite (type_is_run _ _ s2 d (PStr "hover")) by done.
      cbn [Py.eq_str String.eqb Ascii.eqb Bool.eqb]. step.
      apply Hend; [done|].
      intros a [= <-]. exists d. split; [done|]. by eexists.
    + cbn. rewrite Hl. repeat split; try done.
      intros Hin. destruct (Hty (length (heap s))) as (t & Ht & _).
      { by rewrite Hl. }
      apply lookup_lt_Some in Ht. lia.
Qed.

End Properties.

(** ** The theorems at work *)

#[local] Existing Instance Demo.runtime.

Lemma nextTask_clears_pending_witness :
  ∃ s', nextTask Demo.nav Cases.queued = Return tt s'
        ∧ pending_command s' = None.
Proof.
  eexists. split; [vm_compute; reflexivity|].
  eapply (nextTask_clears_pending Demo.nav Cases.queued).
  vm_compute. reflexivity.
Defined.

Lemma append_goto_adds_nothing_witness :
  (word "43.0" ∧ word "-70.0")
  ∧ commandCallback ("append_task goto " +:+ "43.0" +:+ " " +:+ "-70.0")
      Demo.init
    = Return tt Demo.init.
Proof.
  assert (Hw : word "43.0" ∧ word "-70.0") by (by repeat split).
  split; [exact Hw|].
  exact (append_goto_adds_nothing Demo.init "43.0" "-70.0"
           (proj1 Hw) (proj2 Hw)).
Defined.

(** The failing input of C8. *)
Lemma prepend_mission_plan_raises_example :
  commandCallback ("prepend_task mission_plan " +:+ Demo.trackline_json)
    Demo.init
  = Raised (AttributeError "task") Demo.init.
Proof.
  apply (prepend_mission_plan_raises Demo.init Demo.trackline_json
           (PList [Demo.trackline])
           (mission_plan 2 [Demo.trackline] (PStr "L1")) []);
    vm_compute; reflexivity.
Qed.

Lemma current_typed_queued (p : option string) :
  current_typed (set_pending_command p
                   (set_current_task (Some 0%nat) Cases.queued)).
Proof.
  intros a [= <-]. eexists. split; [reflexivity|]. by eexists.
Defined.

Lemma nextTask_do_override_witness :
  (pending_command Cases.overriding = Some "do_override"
   ∧ current_typed Cases.overriding)
  ∧ ∃ s', nextTask Demo.nav Cases.overriding = Return tt s'
          ∧ saved_task s' = Some 0%nat
          ∧ pending_command s' = None.
Proof.
  split; [split; [reflexivity|apply current_typed_queued]|].
  destruct (nextTask_do_override Demo.nav Cases.overriding eq_refl
              (current_typed_queued _))
    as (s' & Hrun & Hsaved & Hpending & _).
  exists s'. by repeat split.
Defined.

Lemma nextTask_goto_task_witness :
  (pending_command Cases.goto_task_pending = Some ("goto_task" +:+ " 1")
   ∧ override_task Cases.goto_task_pending = None
   ∧ current_typed Cases.goto_task_pending)
  ∧ nextTask Demo.nav Cases.goto_task_pending
    = Return tt (set_pending_command None Cases.goto_task_pending).
Proof.
  split; [repeat split; apply current_typed_queued|].
  exact (nextTask_goto_task Demo.nav Cases.goto_task_pending " 1"
           eq_refl eq_refl (current_typed_queued _)).
Defined.




(** C7 as stated fails: with an override installed, [next_task] only
    dismisses it and [current_task] goes back to the saved task. *)
Lemma override_stops_the_step : ¬ tail_step Demo.nav Cases.overridden.
Proof.
  intros Hclaim.
  destruct (Hclaim eq_refl) as (s' & Hrun & _ & Hrestart & _).
  { discriminate. }
  { by exists 1%nat. }
  { reflexivity. }
  specialize (Hrestart eq_refl).
  assert (Hs' : s' = final (nextTask Demo.nav Cases.overridden)) by (by rewrite Hrun).
  rewrite Hs' in Hrestart. vm_compute in Hrestart. discriminate.
Qed.

Lemma at_tail_at_the_tail : at_tail Cases.at_the_tail 1%nat.
Proof.
  split; [reflexivity|].
  intros [|[|i]] a Hi Hlt; cbn in *; [|lia|lia].
  injection Hi as <-. reflexivity.
Defined.

Lemma tasks_typed_at_the_tail : tasks_typed Cases.at_the_tail.
Proof.
  intros a Ha. cbn in Ha.
  apply elem_of_cons in Ha as [->|Ha];
    [|apply list_elem_of_singleton in Ha as ->].
  - exists Cases.plan_A. split; [reflexivity|]. by eexists.
  - exists Cases.plan_B. split; [reflexivity|]. by eexists.
Defined.

Lemma nextTask_at_tail_witness :
  (pending_command Cases.at_the_tail = Some "next_task"
   ∧ override_task Cases.at_the_tail = None
   ∧ current_task Cases.at_the_tail = Some 1%nat
   ∧ at_tail Cases.at_the_tail 1%nat
   ∧ tasks_typed Cases.at_the_tail
   ∧ done_behavior Cases.at_the_tail = "hover"
   ∧ positionLatLon Demo.nav = Some (0.75%float, (-1.22)%float))
  ∧ ∃ s', nextTask Demo.nav Cases.at_the_tail = Return tt s'
          ∧ tasks s' = [0%nat; 1%nat]
          ∧ current_task s' = Some 2%nat.
Proof.
  split.
  { repeat split; try reflexivity;
      [apply at_tail_at_the_tail|apply tasks_typed_at_the_tail]. }
  destruct (nextTask_at_tail Demo.nav Cases.at_the_tail 1%nat eq_refl eq_refl
              eq_refl at_tail_at_the_tail tasks_typed_at_the_tail)
    as [_ Hhover].
  destruct (Hhover eq_refl _ _ eq_refl) as (s' & Hrun & Htasks & _ & Hcur & _).
  by exists s'.
Defined.
